(** * Task creation: the handler exercised by the Lambda unit tests

    A shallow embedding of [lambda/tests/unit/create-task.test.js] (the
    [handler] the suite calls, the Jest doubles standing for DynamoDB and
    SES, the test events and the expectations of each test) and of the
    helper functions of [lambda/tests/integration/api.test.js].

    JavaScript values are the values [JSON.parse] can produce; objects are
    finite maps from property names to values. *)

From Stdlib Require Import ZArith String Ascii SpecFloat.
From stdpp Require Import gmap strings list fin_maps pretty.

Set Warnings "-register-all".
Local Open Scope Z_scope.
Local Open Scope string_scope.

(** ** JavaScript values, as far as JSON goes *)

Module JS.

(** A number is an IEEE 754 double. *)
Inductive value :=
| JNull
| JBool (b : bool)
| JNumber (x : spec_float)
| JString (s : string)
| JArray (l : list value)
| JObject (m : gmap string value).

(** [undefined] is [None]: the result of reading a property that is
    not there. *)
Definition js := option value.

(** ToBoolean. *)
Definition truthy (v : js) : bool :=
  match v with
  | None => false
  | Some JNull => false
  | Some (JBool b) => b
  | Some (JNumber (S754_zero _)) => false
  | Some (JNumber S754_nan) => false
  | Some (JNumber _) => true
  | Some (JString s) => negb (String.eqb s "")
  | Some (JArray _) => true
  | Some (JObject _) => true
  end.

(** [v === s] for a string literal [s]. *)
Definition strict_equals_string (v : js) (s : string) : bool :=
  match v with
  | Some (JString t) => String.eqb t s
  | _ => false
  end.

(** What a call or an [await] ends in. *)
Inductive error :=
| SyntaxError
| TypeError
| Error (message : string).

Inductive completion (A : Type) :=
| Normal (a : A)
| Throw (e : error).
Arguments Normal {A} a.
Arguments Throw {A} e.

#[export] Instance completion_ret : MRet completion := @Normal.
#[export] Instance completion_bind : MBind completion :=
  fun A B f c => match c with Normal a => f a | Throw e => Throw e end.

(** [v.k] for a property name that no built-in prototype defines
    ([title], [assignedTo], [priority]): only an object holding its own
    property yields a value; reading from [null] throws. *)
Definition Get (v : value) (k : string) : completion js :=
  match v with
  | JNull => Throw TypeError
  | JObject m => Normal (m !! k)
  | _ => Normal None
  end.

(** The own enumerable properties an object spread [...v] copies:
    those of an object, the indexed elements of an array, the indexed
    characters of a string (one per character of ASCII text), nothing
    for the other primitives. *)
Definition indexed (l : list value) : gmap string value :=
  list_to_map (imap (fun i x => (pretty i, x)) l).

Definition CopyDataProperties (v : value) : gmap string value :=
  match v with
  | JObject m => m
  | JArray l => indexed l
  | JString s =>
      indexed ((fun c => JString (String c EmptyString)) <$> list_ascii_of_string s)
  | _ => ∅
  end.

(** The text of a request body, by what [JSON.parse] makes of it. *)
Inductive text :=
| JSON_text (v : value)   (* a JSON text denoting [v] *)
| not_JSON.               (* any other text, for instance a lone brace *)

Definition JSON_parse (t : text) : completion value :=
  match t with
  | JSON_text v => Normal v
  | not_JSON => Throw SyntaxError
  end.

(** [haystack.includes(needle)] on strings; Jest's [toContain] on a
    string is the same test. *)
Definition includes (haystack needle : string) : bool :=
  match String.index 0 needle haystack with
  | Some _ => true
  | None => false
  end.

(** SameValueZero, the equality of [Set] and of [Array.prototype.includes].
    Arrays and objects are compared by identity; the elements of one
    array literal or of one parsed text are distinct objects. *)
Definition number_eqb (x y : spec_float) : bool :=
  match x, y with
  | S754_nan, S754_nan => true
  | _, _ => SFeqb x y
  end.

Definition SameValueZero (v w : value) : bool :=
  match v, w with
  | JNull, JNull => true
  | JBool a, JBool b => Bool.eqb a b
  | JNumber x, JNumber y => number_eqb x y
  | JString s, JString t => String.eqb s t
  | _, _ => false
  end.

(** The text [JSON.stringify v] of a response body, kept as the value
    it serialises. *)
Inductive serialised :=
| JSON_stringify (v : value).

(** Reading such a text back gives the value again, except that a
    number that is not finite was written as [null] and a negative
    zero as [0]. *)
Fixpoint reparse (v : value) : value :=
  match v with
  | JNumber (S754_zero _) => JNumber (S754_zero false)
  | JNumber (S754_infinity _) => JNull
  | JNumber S754_nan => JNull
  | JArray l => JArray (reparse <$> l)
  | JObject m => JObject (reparse <$> m)
  | _ => v
  end.

Definition JSON_parse_serialised (t : serialised) : value :=
  match t with JSON_stringify v => reparse v end.

(** [v.k] where the test reads a result; [undefined] when it is absent. *)
Definition field (v : js) (k : string) : js :=
  match v with
  | Some (JObject m) => m !! k
  | _ => None
  end.

End JS.

Import JS.

(** ** The Jest doubles of the AWS clients *)

Module Jest.

(** A [jest.fn()]: what the promise of its n-th call settles to, and
    [mock.calls], the first argument of every call so far. *)
Record mock_fn := {
  settles : nat -> completion js;
  calls : list value
}.

(** [mockDynamoDB] and [mockSES]. *)
Record doubles := {
  put : mock_fn;
  get : mock_fn;
  sendEmail : mock_fn
}.

Definition toHaveBeenCalledTimes (f : mock_fn) (n : nat) : bool :=
  Nat.eqb (length (calls f)) n.

Definition not_toHaveBeenCalled (f : mock_fn) : bool :=
  Nat.eqb (length (calls f)) 0.

(** An asynchronous function runs against the doubles and either
    resolves or rejects. *)
Definition async (A : Type) := doubles -> completion A * doubles.

#[export] Instance async_ret : MRet async := fun A a d => (Normal a, d).
#[export] Instance async_bind : MBind async :=
  fun A B f c d =>
    match c d with
    | (Normal a, d') => f a d'
    | (Throw e, d') => (Throw e, d')
    end.

Definition settle {A} (c : completion A) : async A := fun d => (c, d).

End Jest.

Import Jest.

(** ** create-task.test.js *)

Module CreateTask.

Record Authorizer := { claims : option (gmap string value) }.
Record RequestContext := { authorizer : option Authorizer }.
Record Event := {
  body : option text;   (* [None]: undefined, null or the empty text *)
  requestContext : option RequestContext
}.

Record Response := {
  statusCode : Z;
  response_body : serialised
}.

Definition message_body (m : string) : serialised :=
  JSON_stringify (JObject {["message" := JString m]}).

(** [event.requestContext?.authorizer?.claims?.['custom:role']] *)
Definition role_of (event : Event) : js :=
  rc ← requestContext event; a ← authorizer rc; c ← claims a; c !! "custom:role".

(** [{ taskId: 'test-123', ...body, status: 'To Do' }] *)
Definition new_task (body : value) : gmap string value :=
  <["status" := JString "To Do"]>
    (CopyDataProperties body ∪ {["taskId" := JString "test-123"]}).

(** [!body.title || !body.assignedTo] *)
Definition missing_required (body : value) : completion bool :=
  title ← Get body "title";
  if negb (truthy title) then mret true
  else assignedTo ← Get body "assignedTo"; mret (negb (truthy assignedTo)).

Definition handler (event : Event) : async Response :=
  body ← settle (JSON_parse (default (JSON_text (JObject ∅)) (body event)));
  let role := role_of event in
  if negb (strict_equals_string role "admin") then
    mret {| statusCode := 403;
            response_body := message_body "Only admins can create tasks" |}
  else
    missing ← settle (missing_required body);
    if (missing : bool) then
      mret {| statusCode := 400;
              response_body := message_body "Missing required fields" |}
    else
      let task := JObject (new_task body) in
      mret {| statusCode := 201;
              response_body := JSON_stringify (JObject {["task" := task]}) |}.

(** *** The suite *)

Definition obj (l : list (string * value)) : value := JObject (list_to_map l).

Definition resolves (v : value) : nat -> completion js := fun _ => Normal (Some v).
Definition rejects (e : error) : nat -> completion js := fun _ => Throw e.

(** [beforeEach]: fresh doubles, nothing called yet. *)
Definition mockDynamoDB_put : mock_fn :=
  {| settles := resolves (obj []); calls := [] |}.

Definition mockDynamoDB_get : mock_fn :=
  {| settles := resolves (obj [("Item", obj [("userId", JString "user-123");
                                             ("email", JString "member@amalitechtraining.org");
                                             ("role", JString "member");
                                             ("status", JString "active")])]);
     calls := [] |}.

Definition mockSES_sendEmail : mock_fn :=
  {| settles := resolves (obj [("MessageId", JString "msg-123")]); calls := [] |}.

Definition beforeEach : doubles :=
  {| put := mockDynamoDB_put; get := mockDynamoDB_get; sendEmail := mockSES_sendEmail |}.

Definition event_of (claims_ : list (string * value)) (payload : list (string * value)) : Event :=
  {| body := Some (JSON_text (obj payload));
     requestContext :=
       Some {| authorizer := Some {| claims := Some (list_to_map claims_) |} |} |}.

Definition admin_claims : list (string * value) :=
  [("sub", JString "admin-123"); ("email", JString "admin@amalitech.com");
   ("custom:role", JString "admin")].

Definition member_claims : list (string * value) :=
  [("sub", JString "member-123"); ("email", JString "member@amalitechtraining.org");
   ("custom:role", JString "member")].

(** A test passes when every expectation holds; reading a property of
    [undefined] makes it fail like a failed expectation. *)
Definition toBe_string (v : js) (s : string) : bool := strict_equals_string v s.

Definition toContain (v : js) (s : string) : bool :=
  match v with
  | Some (JString t) => includes t s
  | _ => false
  end.

Definition toHaveProperty (v : js) (k : string) : bool :=
  match v with
  | Some (JObject m) => bool_decide (is_Some (m !! k))
  | _ => false
  end.

Definition parsed_body (r : Response) : js := Some (JSON_parse_serialised (response_body r)).

(** should create task successfully with valid data *)
Definition valid_event : Event :=
  event_of admin_claims
    [("title", JString "Test Task"); ("description", JString "Test Description");
     ("priority", JString "normal"); ("dueDate", JString "2026-03-15");
     ("assignedTo", JArray [JString "user-123"])].

Definition test_create_valid : bool :=
  match handler valid_event beforeEach with
  | (Normal result, d) =>
      Z.eqb (statusCode result) 201
      && toHaveBeenCalledTimes (put d) 1
      && toHaveBeenCalledTimes (sendEmail d) 1
      && (let body := parsed_body result in
          toHaveProperty (field body "task") "taskId"
          && toBe_string (field (field body "task") "title") "Test Task"
          && toBe_string (field (field body "task") "status") "To Do")
  | (Throw _, _) => false
  end.

(** should reject task creation by non-admin users *)
Definition member_event : Event :=
  event_of member_claims
    [("title", JString "Test Task"); ("description", JString "Test Description");
     ("priority", JString "normal"); ("assignedTo", JArray [JString "user-123"])].

Definition test_reject_non_admin : bool :=
  match handler member_event beforeEach with
  | (Normal result, d) =>
      Z.eqb (statusCode result) 403
      && not_toHaveBeenCalled (put d)
      && not_toHaveBeenCalled (sendEmail d)
      && toContain (field (parsed_body result) "message") "Only admins can create tasks"
  | (Throw _, _) => false
  end.

(** should validate required fields *)
Definition missing_fields_event : Event :=
  event_of admin_claims [("description", JString "Test Description")].

Definition test_validate_required : bool :=
  match handler missing_fields_event beforeEach with
  | (Normal result, d) =>
      Z.eqb (statusCode result) 400
      && not_toHaveBeenCalled (put d)
      && toContain (field (parsed_body result) "message") "Missing required fields"
  | (Throw _, _) => false
  end.

(** should send urgent email notification for high priority tasks *)
Definition urgent_event : Event :=
  event_of admin_claims
    [("title", JString "Urgent Task"); ("description", JString "Critical bug fix needed");
     ("priority", JString "urgent"); ("dueDate", JString "2026-03-12");
     ("assignedTo", JArray [JString "user-123"])].

(** The alert marker, with the bytes it has in the test file. *)
Definition alert_marker : string :=
  string_of_list_ascii
    (ascii_of_nat <$> [195; 176; 197; 184; 197; 161; 194; 168]%nat).

Definition subject_of (emailParams : js) : js :=
  field (field (field emailParams "Message") "Subject") "Data".

Definition test_urgent_email : bool :=
  match handler urgent_event beforeEach with
  | (Normal result, d) =>
      Z.eqb (statusCode result) 201
      && toHaveBeenCalledTimes (sendEmail d) 1
      && (let emailParams := calls (sendEmail d) !! 0%nat in
          toContain (subject_of emailParams) alert_marker
          && toContain (subject_of emailParams) "Urgent")
  | (Throw _, _) => false
  end.

(** should handle multiple assignees *)
Definition mockMultipleUsers : nat -> completion js :=
  fun n =>
    match n with
    | 0%nat => Normal (Some (obj [("Item", obj [("userId", JString "user-1");
                                   ("email", JString "user1@amalitechtraining.org");
                                   ("status", JString "active")])]))
    | 1%nat => Normal (Some (obj [("Item", obj [("userId", JString "user-2");
                                   ("email", JString "user2@amalitechtraining.org");
                                   ("status", JString "active")])]))
    | _ => Normal None
    end.

Definition multiple_doubles : doubles :=
  {| put := mockDynamoDB_put;
     get := {| settles := mockMultipleUsers; calls := [] |};
     sendEmail := mockSES_sendEmail |}.

Definition multiple_event : Event :=
  event_of admin_claims
    [("title", JString "Multi-User Task"); ("description", JString "Collaborative task");
     ("priority", JString "normal");
     ("assignedTo", JArray [JString "user-1"; JString "user-2"])].

Definition test_multiple_assignees : bool :=
  match handler multiple_event multiple_doubles with
  | (Normal result, d) =>
      Z.eqb (statusCode result) 201
      && toHaveBeenCalledTimes (get d) 2
      && toHaveBeenCalledTimes (sendEmail d) 2
  | (Throw _, _) => false
  end.

(** should reject tasks with invalid assignees *)
Definition not_found_doubles : doubles :=
  {| put := mockDynamoDB_put;
     get := {| settles := resolves (obj []); calls := [] |};
     sendEmail := mockSES_sendEmail |}.

Definition invalid_assignee_event : Event :=
  event_of admin_claims
    [("title", JString "Invalid Task"); ("description", JString "Task with invalid user");
     ("priority", JString "normal"); ("assignedTo", JArray [JString "invalid-user"])].

Definition test_invalid_assignees : bool :=
  match handler invalid_assignee_event not_found_doubles with
  | (Normal result, d) =>
      Z.eqb (statusCode result) 400
      && not_toHaveBeenCalled (put d)
      && toContain (field (parsed_body result) "message") "Invalid assignees"
  | (Throw _, _) => false
  end.

(** should handle DynamoDB errors gracefully *)
Definition failing_put_doubles : doubles :=
  {| put := {| settles := rejects (Error "DynamoDB connection failed"); calls := [] |};
     get := mockDynamoDB_get;
     sendEmail := mockSES_sendEmail |}.

Definition storage_failure_event : Event :=
  event_of admin_claims
    [("title", JString "Test Task"); ("description", JString "Test Description");
     ("priority", JString "normal"); ("assignedTo", JArray [JString "user-123"])].

Definition test_dynamodb_error : bool :=
  match handler storage_failure_event failing_put_doubles with
  | (Normal result, d) =>
      Z.eqb (statusCode result) 500
      && toContain (field (parsed_body result) "message") "Internal server error"
  | (Throw _, _) => false
  end.

(** should sanitize task input to prevent injection *)
Definition script_title : string := "<script>alert(" ++ String (ascii_of_nat 34) "xss"
                                    ++ String (ascii_of_nat 34) ")</script>Task".

Definition script_event : Event :=
  event_of admin_claims
    [("title", JString script_title); ("description", JString "Normal description");
     ("priority", JString "normal"); ("assignedTo", JArray [JString "user-123"])].

Definition not_toContain (v : js) (s : string) : bool :=
  match v with
  | Some (JString t) => negb (includes t s)
  | _ => false
  end.

Definition test_sanitize : bool :=
  match handler script_event beforeEach with
  | (Normal result, d) =>
      Z.eqb (statusCode result) 201
      && (let putCall := calls (put d) !! 0%nat in
          not_toContain (field (field putCall "Item") "title") "<script>")
  | (Throw _, _) => false
  end.

(** The task object of a 201 response. *)
Definition created_task (r : Response) : option (gmap string value) :=
  if Z.eqb (statusCode r) 201 then
    match response_body r with
    | JSON_stringify (JObject m) =>
        match m !! "task" with
        | Some (JObject t) => Some t
        | _ => None
        end
    | _ => None
    end
  else None.

End CreateTask.

(** ** api.test.js *)

Module Api.

(** The object a helper returns: its [statusCode] and its other
    properties. *)
Record reply := {
  statusCode : Z;
  properties : gmap string value
}.

Definition mockCreateTask (role : js) : reply :=
  if negb (strict_equals_string role "admin") then
    {| statusCode := 403;
       properties := {["message" := JString "Only admins can create tasks"]} |}
  else
    {| statusCode := 201; properties := {["taskId" := JString "task-123"]} |}.

Definition mockValidateTask (taskData : value) : completion reply :=
  missing ← CreateTask.missing_required taskData;
  if (missing : bool) then
    mret {| statusCode := 400;
            properties := {["message" := JString "Missing required fields"]} |}
  else
    mret {| statusCode := 200; properties := {["valid" := JBool true]} |}.

(** [[...new Set(members)]]: the first occurrence of every value, in order. *)
Definition Set_add (seen : list value) (x : value) : list value :=
  if existsb (SameValueZero x) seen then seen else seen ++ [x].

Definition uniqueMembers (members : list value) : list value :=
  fold_left Set_add members [].

Definition mockAssignTask (members : js) : reply :=
  match members with
  | Some (JArray l) =>
      if Nat.eqb (length l) 0 then
        {| statusCode := 400; properties := {["message" := JString "Invalid members"]} |}
      else
        {| statusCode := 200; properties := {["assignedTo" := JArray (uniqueMembers l)]} |}
  | _ => {| statusCode := 400; properties := {["message" := JString "Invalid members"]} |}
  end.

Definition validPriorities : list value :=
  [JString "low"; JString "normal"; JString "high"; JString "urgent"].

(** [validPriorities.includes(priority)]; [undefined] is no element. *)
Definition includes_value (l : list value) (v : js) : bool :=
  match v with
  | Some w => existsb (SameValueZero w) l
  | None => false
  end.

Definition mockValidatePriority (priority : js) : reply :=
  if negb (includes_value validPriorities priority) then
    {| statusCode := 400; properties := {["message" := JString "Invalid priority"]} |}
  else
    {| statusCode := 200; properties := {["valid" := JBool true]} |}.

(** [getMockAuthToken(role = 'admin')], for a role that is a string or
    is left out. *)
Definition getMockAuthToken (role : option string) : string :=
  "mock-" ++ default "admin" role ++ "-token-for-testing".

(** The tasks of the role-filter test. *)
Record Task := {
  taskId : string;
  assignedTo : list value
}.

Definition allTasks : list Task :=
  [ {| taskId := "1"; assignedTo := [JString "member1"] |};
    {| taskId := "2"; assignedTo := [JString "member2"] |};
    {| taskId := "3"; assignedTo := [JString "member1"; JString "member2"] |} ].

Definition mockGetTasks (userId role : js) : list Task :=
  if strict_equals_string role "admin" then allTasks
  else filter (fun t => includes_value (assignedTo t) userId = true) allTasks.

Definition validStatuses : list value :=
  [JString "To Do"; JString "In Progress"; JString "Completed"].

Definition mockUpdateStatus (currentStatus newStatus : js) : reply :=
  if negb (includes_value validStatuses newStatus) then
    {| statusCode := 400; properties := {["message" := JString "Invalid status"]} |}
  else
    {| statusCode := 200;
       properties := match newStatus with
                     | Some v => {["status" := v]}
                     | None => ∅
                     end |}.

(** [mockAddComment] on an array of comments; [timestamp] is what
    [new Date().toISOString()] gives at the call. *)
Definition mockAddComment (timestamp : string)
    (existingComments : list value) (newComment author : value) : list value :=
  let comment := JObject (<["timestamp" := JString timestamp]>
                            (<["author" := author]> {["text" := newComment]})) in
  existingComments ++ [comment].

(** [try { ... } catch (error) { ... }] *)
Definition try_catch {A} (block : completion A) (handle : error -> completion A)
    : completion A :=
  match block with
  | Normal a => Normal a
  | Throw e => handle e
  end.

Definition mockApiOperation (simulateError : js) : completion reply :=
  try_catch
    (if truthy simulateError then Throw (Error "Database connection failed")
     else mret {| statusCode := 200; properties := {["data" := JObject ∅]} |})
    (fun error =>
       mret {| statusCode := 500;
               properties := {["message" := JString "Internal server error"]} |}).

End Api.

(** ** setup.js *)

Module Setup.

(** What [createMockEvent] is given: a string (the empty one, or a text),
    or anything else ([undefined], or a value that is not a string). *)
Inductive mock_data :=
| string_data (t : option text)
| other_data (v : js).

(** [typeof data === 'string' ? data : JSON.stringify(data)]; the text
    [JSON.stringify] writes denotes the value read back from it, and
    [JSON.stringify(undefined)] is [undefined]. *)
Definition body_of (data : mock_data) : option text :=
  match data with
  | string_data t => t
  | other_data v => (fun w => JSON_text (reparse w)) <$> v
  end.

(** The event [createMockEvent] builds, in the fields the handler reads. *)
Definition createMockEvent (data : mock_data) : CreateTask.Event :=
  {| CreateTask.body := body_of data;
     CreateTask.requestContext :=
       Some {| CreateTask.authorizer :=
                 Some {| CreateTask.claims :=
                           Some (list_to_map
                                   [("sub", JString "test-user-id");
                                    ("email", JString "test@amalitech.com");
                                    ("custom:role", JString "admin")]) |} |} |}.

End Setup.

(** ** commit-batch.sh *)

Module CommitBatch.

Definition newline : string := String (ascii_of_nat 10) EmptyString.

(** [[ -n "$s" ]] *)
Definition non_empty (s : string) : bool := negb (String.eqb s "").

(** The message [make_commit] builds before it calls [git commit]. *)
Definition commit_msg (type scope subject body footer : string) : string :=
  let commit_msg := type in
  let commit_msg :=
    if non_empty scope then commit_msg ++ "(" ++ scope ++ ")" else commit_msg in
  let commit_msg := commit_msg ++ ": " ++ subject in
  let commit_msg :=
    if non_empty body then commit_msg ++ newline ++ newline ++ body else commit_msg in
  let commit_msg :=
    if non_empty footer then commit_msg ++ newline ++ newline ++ footer
    else commit_msg in
  commit_msg.

(** The text up to the first line feed. *)
Fixpoint first_line (s : string) : string :=
  match s with
  | EmptyString => EmptyString
  | String c rest =>
      if Ascii.eqb c (ascii_of_nat 10) then EmptyString
      else String c (first_line rest)
  end.

Fixpoint single_line (s : string) : bool :=
  match s with
  | EmptyString => true
  | String c rest => negb (Ascii.eqb c (ascii_of_nat 10)) && single_line rest
  end.

End CommitBatch.

Import CreateTask.

(** ** What the handler does, step by step *)

Definition parsed (event : Event) : completion value :=
  JSON_parse (default (JSON_text (JObject ∅)) (body event)).

Definition is_admin (event : Event) : bool :=
  strict_equals_string (role_of event) "admin".

Definition forbidden : Response :=
  {| statusCode := 403; response_body := message_body "Only admins can create tasks" |}.

Definition bad_request : Response :=
  {| statusCode := 400; response_body := message_body "Missing required fields" |}.

Definition created (payload : value) : Response :=
  {| statusCode := 201;
     response_body := JSON_stringify (JObject {["task" := JObject (new_task payload)]}) |}.

(** What an invocation returned, as the tests read it. *)
Definition returned_status (run : completion Response * doubles) : option Z :=
  match run.1 with
  | Normal r => Some (statusCode r)
  | Throw _ => None
  end.

Definition task_of (run : completion Response * doubles) : option (gmap string value) :=
  match run.1 with
  | Normal r => created_task r
  | Throw _ => None
  end.

Definition taskId_of (run : completion Response * doubles) : js :=
  task_of run ≫= (.!! "taskId").

(** A caller that retries invokes the handler again, on the doubles as
    the first invocation left them. *)
Definition retry (event : Event) (d : doubles) : completion Response * doubles :=
  handler event (handler event d).2.

(** A member sends a body that is not JSON. *)
Definition malformed_member_event : Event :=
  {| body := Some not_JSON;
     requestContext :=
       Some {| authorizer := Some {| claims := Some (list_to_map member_claims) |} |} |}.

(** An admin sends a priority that is not one of the four. *)
Definition critical_priority_event : Event :=
  event_of admin_claims
    [("title", JString "Test Task"); ("priority", JString "critical");
     ("assignedTo", JArray [JString "user-123"])].

(** An admin sends a task identifier of the caller's own choosing. *)
Definition own_taskId_event : Event :=
  event_of admin_claims
    [("taskId", JString "chosen-by-caller"); ("title", JString "Test Task");
     ("priority", JString "normal"); ("assignedTo", JArray [JString "user-123"])].

(** An admin sends an empty list of assignees. *)
Definition no_assignee_event : Event :=
  event_of admin_claims [("title", JString "Test Task"); ("assignedTo", JArray [])].


Lemma handler_unfold (event : Event) (d : doubles) :
  handler event d =
    match parsed event with
    | Throw e => (Throw e, d)
    | Normal payload =>
        if negb (is_admin event) then (Normal forbidden, d)
        else match missing_required payload with
             | Throw e => (Throw e, d)
             | Normal true => (Normal bad_request, d)
             | Normal false => (Normal (created payload), d)
             end
    end.
Proof.
  unfold handler, parsed, is_admin, mbind, async_bind, settle.
  destruct (JSON_parse _) as [payload|e]; [|reflexivity].
  destruct (negb _); [reflexivity|].
  destruct (missing_required payload) as [[|]|e]; reflexivity.
Qed.

(** The handler never touches the doubles: no [put], no [get], no
    [sendEmail] is recorded by an invocation. *)
Lemma handler_calls_nothing (event : Event) (d : doubles) :
  (handler event d).2 = d.
Proof.
  rewrite handler_unfold.
  destruct (parsed event) as [payload|e]; [|reflexivity].
  destruct (negb _); [reflexivity|].
  destruct (missing_required payload) as [[|]|e]; reflexivity.
Qed.

Lemma missing_required_spec (payload : value) :
  payload ≠ JNull →
  missing_required payload =
    Normal (negb (truthy (field (Some payload) "title"))
            || negb (truthy (field (Some payload) "assignedTo"))).
Proof.
  intros Hnull. unfold missing_required, mbind, completion_bind, mret, completion_ret.
  destruct payload; try congruence; simpl;
    try reflexivity.
  destruct (truthy (m !! "title")); reflexivity.
Qed.

(** Only an object passes the required-fields test. *)
Lemma missing_required_false (payload : value) :
  missing_required payload = Normal false →
  ∃ m, payload = JObject m
       ∧ truthy (m !! "title") = true ∧ truthy (m !! "assignedTo") = true.
Proof.
  unfold missing_required, mbind, completion_bind, mret, completion_ret.
  destruct payload; simpl; try discriminate.
  destruct (truthy (m !! "title")) eqn:Ht; simpl; [|discriminate].
  destruct (truthy (m !! "assignedTo")) eqn:Ha; simpl; [|discriminate].
  intros _. eauto.
Qed.

(** A 201 response comes from an admin's object payload with a truthy
    [title] and a truthy [assignedTo], and is the task built from it. *)
Lemma handler_created (event : Event) (d d' : doubles) (r : Response) :
  handler event d = (Normal r, d') →
  statusCode r = 201 →
  ∃ m, parsed event = Normal (JObject m)
       ∧ is_admin event = true
       ∧ truthy (m !! "title") = true ∧ truthy (m !! "assignedTo") = true
       ∧ r = created (JObject m) ∧ d' = d.
Proof.
  rewrite handler_unfold.
  destruct (parsed event) as [payload|e]; [|discriminate].
  destruct (is_admin event); simpl.
  - destruct (missing_required payload) as [[|]|e] eqn:Hm; try discriminate.
    + intros [= <- <-]. discriminate.
    + intros [= <- <-] _. apply missing_required_false in Hm as (m & -> & Ht & Ha).
      exists m. repeat split; assumption || reflexivity.
  - intros [= <- <-]. discriminate.
Qed.

Lemma new_task_lookup (m : gmap string value) (k : string) :
  new_task (JObject m) !! k =
    if decide (k = "status") then Some (JString "To Do")
    else if decide (k = "taskId") then Some (default (JString "test-123") (m !! k))
    else m !! k.
Proof.
  unfold new_task, CopyDataProperties.
  case_decide as Hs.
  - subst. apply lookup_insert_eq.
  - rewrite lookup_insert_ne by congruence.
    rewrite lookup_union.
    case_decide as Ht.
    + subst. rewrite lookup_singleton_eq. destruct (m !! "taskId"); reflexivity.
    + rewrite lookup_singleton_ne by congruence. destruct (m !! k); reflexivity.
Qed.

Lemma includes_validPriorities (priority : js) :
  Api.includes_value Api.validPriorities priority = true ↔
  ∃ s, s ∈ ["low"; "normal"; "high"; "urgent"] ∧ priority = Some (JString s).
Proof.
  split.
  - destruct priority as [[| | |s| |]|]; simpl; try discriminate.
    rewrite !orb_true_iff, !String.eqb_eq.
    intros H. exists s. split; [|reflexivity].
    rewrite list_elem_of_In. simpl.
    destruct H as [->|[->|[->|[->|?]]]]; try discriminate; auto 6.
  - intros (s & Hs & ->). simpl.
    rewrite !orb_true_iff, !String.eqb_eq.
    apply list_elem_of_In in Hs. simpl in Hs.
    destruct Hs as [<-|[<-|[<-|[<-|[]]]]]; auto 6.
Qed.

Lemma existsb_SameValueZero_strings (s : string) (seen : list string) :
  existsb (SameValueZero (JString s)) (JString <$> seen) = true ↔ s ∈ seen.
Proof.
  induction seen as [|t seen IH]; simpl.
  - split; [discriminate|]. intros H. inversion H.
  - rewrite orb_true_iff, IH, String.eqb_eq, elem_of_cons. reflexivity.
Qed.

Lemma Set_add_strings (ss seen : list string) :
  NoDup seen →
  ∃ us, fold_left Api.Set_add (JString <$> ss) (JString <$> seen) = JString <$> us
        ∧ NoDup us
        ∧ ∀ s, s ∈ us ↔ s ∈ seen ∨ s ∈ ss.
Proof.
  revert seen. induction ss as [|a ss IH]; intros seen Hnd; simpl.
  - exists seen. split; [reflexivity|]. split; [exact Hnd|].
    intros s. split; [auto|]. intros [H|H]; [exact H|inversion H].
  - unfold Api.Set_add at 2.
    destruct (existsb _ _) eqn:Hex.
    + apply existsb_SameValueZero_strings in Hex.
      destruct (IH seen Hnd) as (us & Heq & Hus & Hin).
      exists us. split; [exact Heq|]. split; [exact Hus|].
      intros s. rewrite Hin, elem_of_cons.
      split; [tauto|]. intros [H|[->|H]]; auto.
    + assert (Hnot : a ∉ seen).
      { intros H. apply existsb_SameValueZero_strings in H. congruence. }
      assert (Hnd' : NoDup (seen ++ [a])).
      { apply NoDup_app. split; [exact Hnd|]. split.
        - intros x Hx Hxa. apply list_elem_of_singleton in Hxa. subst. auto.
        - apply NoDup_singleton. }
      destruct (IH (seen ++ [a])%list Hnd') as (us & Heq & Hus & Hin).
      exists us. split.
      * rewrite fmap_app in Heq. exact Heq.
      * split; [exact Hus|]. intros s.
        rewrite Hin, elem_of_app, list_elem_of_singleton, elem_of_cons. tauto.
Qed.

(** [mockAssignTask] on identifiers: every one kept once. *)
Lemma uniqueMembers_strings (ss : list string) :
  ∃ us, Api.uniqueMembers (JString <$> ss) = JString <$> us
        ∧ NoDup us
        ∧ ∀ s, s ∈ us ↔ s ∈ ss.
Proof.
  destruct (Set_add_strings ss [] (NoDup_nil_2)) as (us & Heq & Hus & Hin).
  exists us. split; [exact Heq|]. split; [exact Hus|].
  intros s. rewrite Hin. split; [|auto]. intros [H|H]; [inversion H|exact H].
Qed.

(** The two helpers of the integration suite decide as the handler does. *)
Lemma mockCreateTask_as_handler (event : Event) :
  Api.statusCode (Api.mockCreateTask (role_of event)) = 403 ↔ is_admin event = false.
Proof.
  unfold Api.mockCreateTask, is_admin.
  destruct (strict_equals_string _ _); simpl; split; congruence.
Qed.

Lemma mockValidateTask_as_handler (payload : value) (missing : bool) :
  missing_required payload = Normal missing →
  ∃ r, Api.mockValidateTask payload = Normal r
       ∧ Api.statusCode r = if missing then 400 else 200.
Proof.
  intros H. unfold Api.mockValidateTask. rewrite H.
  destruct missing; eexists; split; reflexivity.
Qed.

(** The verdicts of the suite on this handler. *)
Example suite_verdicts :
  [test_create_valid; test_reject_non_admin; test_validate_required;
   test_urgent_email; test_multiple_assignees; test_invalid_assignees;
   test_dynamodb_error; test_sanitize]
  = [false; true; true; false; false; false; false; false].
Proof. vm_compute. reflexivity. Qed.

(** ** The claims *)

(** C1, as stated, fails: the handler parses the body before it looks at
    the role, so a member whose body is not JSON gets the parser's
    SyntaxError and no 403 response. *)
Lemma C1_counterexample :
  is_admin malformed_member_event = false
  ∧ handler malformed_member_event beforeEach = (Throw SyntaxError, beforeEach)
  ∧ returned_status (handler malformed_member_event beforeEach) ≠ Some 403.
Proof. vm_compute. repeat split; discriminate. Qed.

(** C1, amended: for every request whose body is absent, empty or a JSON
    text and whose role claim is not the string admin (a missing claim
    included), the handler returns 403 with the message
    "Only admins can create tasks", and the doubles are as before: no
    put, no get and no sendEmail was recorded. *)
Theorem C1_non_admin_forbidden (event : Event) (d : doubles) :
  body event ≠ Some not_JSON →
  strict_equals_string (role_of event) "admin" = false →
  handler event d =
    (Normal {| statusCode := 403;
               response_body :=
                 JSON_stringify (JObject {["message" := JString "Only admins can create tasks"]}) |},
     d)
  ∧ calls (put (handler event d).2) = calls (put d)
  ∧ calls (sendEmail (handler event d).2) = calls (sendEmail d).
Proof.
  intros Hbody Hrole.
  rewrite handler_calls_nothing. split; [|split; reflexivity].
  rewrite handler_unfold. unfold is_admin. rewrite Hrole. simpl.
  unfold parsed. destruct (body event) as [[v|]|]; simpl; try reflexivity.
  congruence.
Qed.

Lemma C1_non_admin_forbidden_witness :
  body member_event ≠ Some not_JSON
  ∧ strict_equals_string (role_of member_event) "admin" = false
  ∧ returned_status (handler member_event beforeEach) = Some 403
  ∧ calls (put (handler member_event beforeEach).2) = []
  ∧ calls (sendEmail (handler member_event beforeEach).2) = [].
Proof.
  assert (Hb : body member_event ≠ Some not_JSON) by discriminate.
  assert (Hr : strict_equals_string (role_of member_event) "admin" = false)
    by reflexivity.
  destruct (C1_non_admin_forbidden member_event beforeEach Hb Hr) as (H & Hp & Hs).
  split; [exact Hb|]. split; [exact Hr|].
  split; [unfold returned_status; rewrite H; reflexivity|].
  split; [exact Hp | exact Hs].
Defined.

(** C2, as stated, fails: the handler never looks at [priority], so an
    admin's payload with a title, an assignee and the priority "critical"
    is answered 201. *)
Lemma C2_counterexample :
  is_admin critical_priority_event = true
  ∧ (payload ← parsed critical_priority_event; Get payload "priority")
      = Normal (Some (JString "critical"))
  ∧ Api.includes_value Api.validPriorities (Some (JString "critical")) = false
  ∧ returned_status (handler critical_priority_event beforeEach) = Some 201.
Proof. vm_compute. repeat split; reflexivity. Qed.

(** C2, amended: for every admin request whose body is absent, empty or
    a JSON text other than null, and whose payload has no title or a
    falsy one (null, false, 0, the empty string) or no assignedTo or a
    falsy one, the handler returns 400 with the message
    "Missing required fields" and records no put. The handler does not
    check priority; the separate mockValidatePriority answers 400 with
    "Invalid priority" exactly for a value that is none of low, normal,
    high, urgent. *)
Theorem C2_missing_fields_rejected
    (event : Event) (d : doubles) (payload : value) (priority : js) :
  parsed event = Normal payload →
  payload ≠ JNull →
  strict_equals_string (role_of event) "admin" = true →
  truthy (field (Some payload) "title") = false
    ∨ truthy (field (Some payload) "assignedTo") = false →
  handler event d =
    (Normal {| statusCode := 400;
               response_body :=
                 JSON_stringify (JObject {["message" := JString "Missing required fields"]}) |},
     d)
  ∧ calls (put (handler event d).2) = calls (put d)
  ∧ (Api.statusCode (Api.mockValidatePriority priority) = 400
     ↔ ∀ s, s ∈ ["low"; "normal"; "high"; "urgent"] → priority ≠ Some (JString s))
  ∧ (Api.statusCode (Api.mockValidatePriority priority) = 400 →
     Api.properties (Api.mockValidatePriority priority) !! "message"
       = Some (JString "Invalid priority")).
Proof.
  intros Hparsed Hnull Hrole Hmissing.
  rewrite handler_calls_nothing. split; [|split; [reflexivity|]].
  - rewrite handler_unfold, Hparsed. unfold is_admin. rewrite Hrole. simpl.
    rewrite (missing_required_spec _ Hnull).
    destruct Hmissing as [-> | ->]; simpl; [reflexivity|].
    rewrite orb_true_r. reflexivity.
  - unfold Api.mockValidatePriority.
    destruct (Api.includes_value Api.validPriorities priority) eqn:Hin; simpl.
    + apply includes_validPriorities in Hin as (s & Hs & ->).
      split; [split; [discriminate|]|discriminate].
      intros Hall. exfalso. exact (Hall s Hs eq_refl).
    + split; [split; [|reflexivity]|reflexivity].
      intros _ s Hs ->.
      assert (Api.includes_value Api.validPriorities (Some (JString s)) = true)
        by (apply includes_validPriorities; eauto).
      congruence.
Qed.

Lemma C2_missing_fields_rejected_witness :
  parsed missing_fields_event
    = Normal (obj [("description", JString "Test Description")])
  ∧ obj [("description", JString "Test Description")] ≠ JNull
  ∧ strict_equals_string (role_of missing_fields_event) "admin" = true
  ∧ truthy (field (Some (obj [("description", JString "Test Description")])) "title")
      = false
  ∧ returned_status (handler missing_fields_event beforeEach) = Some 400
  ∧ calls (put (handler missing_fields_event beforeEach).2) = []
  ∧ Api.statusCode (Api.mockValidatePriority (Some (JString "critical"))) = 400.
Proof.
  assert (Hp : parsed missing_fields_event
               = Normal (obj [("description", JString "Test Description")]))
    by reflexivity.
  assert (Hn : obj [("description", JString "Test Description")] ≠ JNull)
    by discriminate.
  assert (Hr : strict_equals_string (role_of missing_fields_event) "admin" = true)
    by reflexivity.
  assert (Ht : truthy (field (Some (obj [("description", JString "Test Description")]))
                         "title") = false)
    by reflexivity.
  destruct (C2_missing_fields_rejected missing_fields_event beforeEach _
              (Some (JString "critical")) Hp Hn Hr (or_introl Ht))
    as (H & Hput & Hprio & _).
  split; [exact Hp|]. split; [exact Hn|]. split; [exact Hr|]. split; [exact Ht|].
  split; [unfold returned_status; rewrite H; reflexivity|].
  split; [exact Hput|].
  apply Hprio. intros s Hs. apply list_elem_of_In in Hs. simpl in Hs.
  destruct Hs as [<-|[<-|[<-|[<-|[]]]]]; discriminate.
Defined.

(** The required-fields test looks at truthiness only: an empty array of
    assignees is truthy and the task is created. *)
Example empty_assignedTo_accepted :
  returned_status (handler no_assignee_event beforeEach) = Some 201
  ∧ Api.statusCode (Api.mockAssignTask (Some (JArray []))) = 400.
Proof. vm_compute. split; reflexivity. Qed.

(** C3 (the handler falls short of it): the test event whose only
    assignee the directory does not know is answered 201 with a task; no
    directory lookup is made, and the suite's expectation of a 400
    "Invalid assignees" fails. No put is recorded either way. *)
Theorem C3_invalid_assignee_is_created :
  returned_status (handler invalid_assignee_event not_found_doubles) = Some 201
  ∧ (task_of (handler invalid_assignee_event not_found_doubles) ≫= (.!! "assignedTo"))
      = Some (JArray [JString "invalid-user"])
  ∧ calls (get (handler invalid_assignee_event not_found_doubles).2) = []
  ∧ calls (put (handler invalid_assignee_event not_found_doubles).2) = []
  ∧ test_invalid_assignees = false.
Proof. vm_compute. repeat split; reflexivity. Qed.

(** C4 (the handler falls short of it): the valid test event is answered
    201 with a task whose status is "To Do", but no put and no sendEmail
    is recorded, where the suite expects one of each. *)
Theorem C4_valid_creation_persists_nothing :
  returned_status (handler valid_event beforeEach) = Some 201
  ∧ (task_of (handler valid_event beforeEach) ≫= (.!! "status"))
      = Some (JString "To Do")
  ∧ (task_of (handler valid_event beforeEach) ≫= (.!! "title"))
      = Some (JString "Test Task")
  ∧ calls (put (handler valid_event beforeEach).2) = []
  ∧ calls (sendEmail (handler valid_event beforeEach).2) = []
  ∧ test_create_valid = false.
Proof. vm_compute. repeat split; reflexivity. Qed.

(** C5 (the handler falls short of it): with two distinct assignees the
    handler answers 201 and records no lookup and no send, where the
    suite expects two of each. Only the separate mockAssignTask collapses
    duplicates: user1, user2, user1 become user1, user2. *)
Theorem C5_two_assignees_no_send :
  returned_status (handler multiple_event multiple_doubles) = Some 201
  ∧ calls (get (handler multiple_event multiple_doubles).2) = []
  ∧ calls (sendEmail (handler multiple_event multiple_doubles).2) = []
  ∧ test_multiple_assignees = false
  ∧ Api.mockAssignTask (Some (JArray [JString "user1"; JString "user2"; JString "user1"]))
      = {| Api.statusCode := 200;
           Api.properties :=
             {["assignedTo" := JArray [JString "user1"; JString "user2"]]} |}.
Proof. vm_compute. repeat split; reflexivity. Qed.

(** C6 (the handler falls short of it): the title with a script element
    comes back unchanged in the task of the 201 response, markup
    included; nothing is put, and the suite's look at the first put call
    fails. *)
Theorem C6_script_title_kept :
  returned_status (handler script_event beforeEach) = Some 201
  ∧ (task_of (handler script_event beforeEach) ≫= (.!! "title"))
      = Some (JString script_title)
  ∧ includes script_title "<script>" = true
  ∧ calls (put (handler script_event beforeEach).2) = []
  ∧ test_sanitize = false.
Proof. vm_compute. repeat split; reflexivity. Qed.

(** C7 (the handler falls short of it): with a put double that rejects,
    the handler still answers 201, since it never calls put; the suite
    expects 500 "Internal server error". No send is recorded. *)
Theorem C7_storage_failure_unnoticed :
  settles (put failing_put_doubles) 0%nat = Throw (Error "DynamoDB connection failed")
  ∧ returned_status (handler storage_failure_event failing_put_doubles) = Some 201
  ∧ calls (put (handler storage_failure_event failing_put_doubles).2) = []
  ∧ calls (sendEmail (handler storage_failure_event failing_put_doubles).2) = []
  ∧ test_dynamodb_error = false.
Proof. vm_compute. repeat split; reflexivity. Qed.

(** C8 (the handler falls short of it): for the urgent test event the
    handler answers 201 and sends nothing, so there is no subject to
    carry the alert marker or the word "Urgent", and the suite's
    expectation of one such email fails. *)
Theorem C8_urgent_no_email :
  (payload ← parsed urgent_event; Get payload "priority")
    = Normal (Some (JString "urgent"))
  ∧ returned_status (handler urgent_event beforeEach) = Some 201
  ∧ calls (sendEmail (handler urgent_event beforeEach).2) = []
  ∧ test_urgent_email = false.
Proof. vm_compute. repeat split; reflexivity. Qed.

(** C9, as stated, fails: an invocation and its retry both produce the
    identifier "test-123", and a taskId in the payload is the one the
    task gets. *)
Lemma C9_counterexample :
  taskId_of (handler valid_event beforeEach) = Some (JString "test-123")
  ∧ taskId_of (retry valid_event beforeEach) = Some (JString "test-123")
  ∧ taskId_of (handler own_taskId_event beforeEach) = Some (JString "chosen-by-caller").
Proof. vm_compute. repeat split; reflexivity. Qed.

(** C9, amended: for every successful creation the task has a taskId,
    set when the task object is built: the payload's own taskId when it
    has one, the constant "test-123" otherwise. *)
Theorem C9_taskId_payload_or_default
    (event : Event) (d d' : doubles) (r : Response) :
  handler event d = (Normal r, d') →
  statusCode r = 201 →
  ∃ payload task,
    parsed event = Normal (JObject payload)
    ∧ created_task r = Some task
    ∧ task !! "taskId" = Some (default (JString "test-123") (payload !! "taskId")).
Proof.
  intros Hrun Hstatus.
  destruct (handler_created _ _ _ _ Hrun Hstatus) as (m & Hp & _ & _ & _ & -> & _).
  exists m, (new_task (JObject m)). split; [exact Hp|]. split; [reflexivity|].
  rewrite new_task_lookup. reflexivity.
Qed.

Lemma C9_taskId_payload_or_default_witness :
  handler own_taskId_event beforeEach
    = (Normal (created (obj [("taskId", JString "chosen-by-caller");
                             ("title", JString "Test Task");
                             ("priority", JString "normal");
                             ("assignedTo", JArray [JString "user-123"])])),
       beforeEach)
  ∧ ∃ payload task,
      parsed own_taskId_event = Normal (JObject payload)
      ∧ created_task
          (created (obj [("taskId", JString "chosen-by-caller");
                         ("title", JString "Test Task");
                         ("priority", JString "normal");
                         ("assignedTo", JArray [JString "user-123"])])) = Some task
      ∧ task !! "taskId" = Some (default (JString "test-123") (payload !! "taskId")).
Proof.
  assert (Hrun : handler own_taskId_event beforeEach
                 = (Normal (created (obj [("taskId", JString "chosen-by-caller");
                                          ("title", JString "Test Task");
                                          ("priority", JString "normal");
                                          ("assignedTo", JArray [JString "user-123"])])),
                    beforeEach))
    by reflexivity.
  split; [exact Hrun|].
  exact (C9_taskId_payload_or_default _ _ _ _ Hrun eq_refl).
Defined.

(** C10: for every accepted creation the task of the 201 response is the
    payload object with every property copied as it is (taskId,
    createdBy, createdAt and any other name included), except that
    status is "To Do" whatever the payload says, and that taskId is
    "test-123" when the payload has none; the task has no other
    property. *)
Theorem C10_payload_spread_into_task
    (event : Event) (d d' : doubles) (r : Response) :
  handler event d = (Normal r, d') →
  statusCode r = 201 →
  ∃ payload task,
    parsed event = Normal (JObject payload)
    ∧ response_body r = JSON_stringify (JObject {["task" := JObject task]})
    ∧ (∀ k x, k ≠ "status" → payload !! k = Some x → task !! k = Some x)
    ∧ task !! "status" = Some (JString "To Do")
    ∧ (payload !! "taskId" = None → task !! "taskId" = Some (JString "test-123"))
    ∧ dom task = dom payload ∪ {["taskId"; "status"]}.
Proof.
  intros Hrun Hstatus.
  destruct (handler_created _ _ _ _ Hrun Hstatus) as (m & Hp & _ & _ & _ & -> & _).
  exists m, (new_task (JObject m)). split; [exact Hp|]. split; [reflexivity|].
  split; [|split; [|split]].
  - intros k x Hk Hx. rewrite new_task_lookup.
    rewrite decide_False by exact Hk.
    case_decide; rewrite Hx; reflexivity.
  - rewrite new_task_lookup. reflexivity.
  - intros Hnone. rewrite new_task_lookup. simpl. rewrite Hnone. reflexivity.
  - unfold new_task, CopyDataProperties.
    rewrite dom_insert_L, dom_union_L, dom_singleton_L.
    apply set_eq. intros k. rewrite !elem_of_union, !elem_of_singleton. tauto.
Qed.

Lemma C10_payload_spread_into_task_witness :
  handler own_taskId_event beforeEach
    = (Normal (created (obj [("taskId", JString "chosen-by-caller");
                             ("title", JString "Test Task");
                             ("priority", JString "normal");
                             ("assignedTo", JArray [JString "user-123"])])),
       beforeEach)
  ∧ ∃ payload task : gmap string value,
      parsed own_taskId_event = Normal (JObject payload)
      ∧ task !! "taskId" = Some (JString "chosen-by-caller")
      ∧ task !! "status" = Some (JString "To Do")
      ∧ dom task = dom payload ∪ {["taskId"; "status"]}.
Proof.
  assert (Hrun : handler own_taskId_event beforeEach
                 = (Normal (created (obj [("taskId", JString "chosen-by-caller");
                                          ("title", JString "Test Task");
                                          ("priority", JString "normal");
                                          ("assignedTo", JArray [JString "user-123"])])),
                    beforeEach))
    by reflexivity.
  split; [exact Hrun|].
  destruct (C10_payload_spread_into_task _ _ _ _ Hrun eq_refl)
    as (payload & task & Hp & _ & Hcopy & Hstatus & _ & Hdom).
  exists payload, task. split; [exact Hp|]. split; [|split; assumption].
  apply Hcopy; [discriminate|].
  injection Hp as <-. reflexivity.
Defined.


(** ** Further properties of the handler *)

Lemma missing_required_throws (payload : value) (e : error) :
  missing_required payload = Throw e ↔ payload = JNull ∧ e = TypeError.
Proof.
  unfold missing_required, mbind, completion_bind, mret, completion_ret.
  destruct payload; simpl; try (split; [discriminate | intros [? _]; discriminate]).
  - split; [intros [= <-]; auto | intros [_ ->]; reflexivity].
  - destruct (truthy (m !! "title")); simpl;
      (split; [discriminate | intros [? _]; discriminate]).
Qed.

(** X1: an invocation records no call on any double, whatever the event,
    and its outcome does not depend on the doubles it runs against. *)
Theorem handler_leaves_doubles (event : Event) (d1 d2 : doubles) :
  calls (put (handler event d1).2) = calls (put d1)
  ∧ calls (get (handler event d1).2) = calls (get d1)
  ∧ calls (sendEmail (handler event d1).2) = calls (sendEmail d1)
  ∧ (handler event d1).1 = (handler event d2).1.
Proof.
  rewrite handler_calls_nothing. repeat split.
  rewrite !handler_unfold.
  destruct (parsed event) as [payload|e]; [|reflexivity].
  destruct (negb _); [reflexivity|].
  destruct (missing_required payload) as [[|]|e]; reflexivity.
Qed.

(** X2: the handler rejects (its promise ends in an exception) in exactly
    two cases: the body is not JSON (SyntaxError, whoever asks), or an
    admin sends the JSON text null (TypeError on reading its title). *)
Theorem handler_rejects_iff (event : Event) (d : doubles) (e : error) :
  (handler event d).1 = Throw e ↔
  (body event = Some not_JSON ∧ e = SyntaxError)
  ∨ (strict_equals_string (role_of event) "admin" = true
     ∧ body event = Some (JSON_text JNull) ∧ e = TypeError).
Proof.
  rewrite handler_unfold. unfold parsed, is_admin.
  destruct (body event) as [[v|]|]; simpl.
  - destruct (strict_equals_string _ _); simpl.
    + destruct (missing_required v) as [[|]|e'] eqn:Hm; simpl.
      * split; [discriminate|]. intros [[? _]|(_ & [= ->] & _)]; discriminate.
      * split; [discriminate|]. intros [[? _]|(_ & [= ->] & _)]; discriminate.
      * apply missing_required_throws in Hm as [-> ->].
        split; [intros [= <-]; auto | intros [[? _]|(_ & _ & ->)]; [discriminate|reflexivity]].
    + split; [discriminate|]. intros [[? _]|(? & _)]; discriminate.
  - split; [intros [= <-]; auto | intros [[_ ->]|(_ & ? & _)]; [reflexivity|discriminate]].
  - destruct (strict_equals_string _ _); simpl;
      (split; [discriminate | intros [[? _]|(_ & ? & _)]; discriminate]).
Qed.

(** X3: a task is created (201) exactly when the role claim is the string
    admin and the payload is an object with a truthy title and a truthy
    assignedTo; nothing else about the payload is looked at. *)
Theorem handler_accepts_iff (event : Event) (d : doubles) :
  returned_status (handler event d) = Some 201 ↔
  strict_equals_string (role_of event) "admin" = true
  ∧ ∃ m, parsed event = Normal (JObject m)
         ∧ truthy (m !! "title") = true ∧ truthy (m !! "assignedTo") = true.
Proof.
  split.
  - unfold returned_status.
    destruct (handler event d) as [[r|e] d'] eqn:Hrun; simpl; [|discriminate].
    intros [= Hs].
    destruct (handler_created _ _ _ _ Hrun Hs) as (m & Hp & Ha & Ht & Hat & _).
    split; [exact Ha|]. exists m. auto.
  - intros (Ha & m & Hp & Ht & Hat).
    rewrite handler_unfold, Hp. unfold is_admin. rewrite Ha. simpl.
    unfold missing_required, mbind, completion_bind, mret, completion_ret. simpl.
    rewrite Ht. simpl. rewrite Hat. reflexivity.
Qed.

(** X4: a response is one of three: 403 "Only admins can create tasks"
    for a caller who is not admin, 400 "Missing required fields" or 201
    with a task for an admin. No other status, 500 included, is ever
    returned. *)
Theorem handler_response_shapes
    (event : Event) (d d' : doubles) (r : Response) :
  handler event d = (Normal r, d') →
  (is_admin event = false
   ∧ r = {| statusCode := 403;
            response_body :=
              JSON_stringify
                (JObject {["message" := JString "Only admins can create tasks"]}) |})
  ∨ (is_admin event = true
     ∧ r = {| statusCode := 400;
              response_body :=
                JSON_stringify
                  (JObject {["message" := JString "Missing required fields"]}) |})
  ∨ (is_admin event = true
     ∧ statusCode r = 201 ∧ is_Some (created_task r)).
Proof.
  rewrite handler_unfold.
  destruct (parsed event) as [payload|e]; [|discriminate].
  destruct (is_admin event); simpl.
  - destruct (missing_required payload) as [[|]|e] eqn:Hm; try discriminate.
    + intros [= <- _]. right. left. split; reflexivity.
    + intros [= <- _]. right. right. split; [reflexivity|]. split; [reflexivity|].
      apply missing_required_false in Hm as (m & -> & _).
      exists (new_task (JObject m)). reflexivity.
  - intros [= <- _]. left. split; reflexivity.
Qed.

Lemma handler_response_shapes_witness :
  handler missing_fields_event beforeEach = (Normal bad_request, beforeEach)
  ∧ is_admin missing_fields_event = true
  ∧ statusCode bad_request = 400.
Proof.
  assert (Hrun : handler missing_fields_event beforeEach
                 = (Normal bad_request, beforeEach)) by reflexivity.
  split; [exact Hrun|].
  destruct (handler_response_shapes _ _ _ _ Hrun)
    as [[_ H]|[[Ha _]|(_ & H & _)]]; try discriminate.
  split; [exact Ha | reflexivity].
Defined.

(** X5: a request without a body (undefined, null or the empty string) is
    read as the empty object: the handler does not reject, it answers 403
    to a caller who is not admin and 400 to an admin. *)
Theorem handler_without_body (event : Event) (d : doubles) :
  body event = None →
  handler event d =
    (Normal (if strict_equals_string (role_of event) "admin"
             then {| statusCode := 400;
                     response_body :=
                       JSON_stringify
                         (JObject {["message" := JString "Missing required fields"]}) |}
             else {| statusCode := 403;
                     response_body :=
                       JSON_stringify
                         (JObject {["message" := JString "Only admins can create tasks"]}) |}),
     d).
Proof.
  intros Hb. rewrite handler_unfold. unfold parsed, is_admin. rewrite Hb. simpl.
  destruct (strict_equals_string _ _); reflexivity.
Qed.

Lemma handler_without_body_witness :
  body {| body := None; requestContext := None |} = None
  ∧ returned_status (handler {| body := None; requestContext := None |} beforeEach)
      = Some 403.
Proof.
  split; [reflexivity|].
  unfold returned_status.
  rewrite (handler_without_body {| body := None; requestContext := None |}
             beforeEach eq_refl).
  reflexivity.
Defined.

Lemma reparse_object (m : gmap string value) :
  reparse (JObject m) = JObject (reparse <$> m).
Proof. reflexivity. Qed.

Lemma parsed_body_task (payload : value) (k : string) :
  field (field (parsed_body (created payload)) "task") k
    = reparse <$> (new_task payload !! k).
Proof.
  unfold parsed_body, created, JSON_parse_serialised, response_body.
  rewrite reparse_object. unfold field at 2.
  rewrite lookup_fmap, lookup_singleton_eq. simpl.
  rewrite lookup_fmap. reflexivity.
Qed.

(** X6: every created task has the payload's title and assignedTo, both
    truthy, and a taskId property (whose value may be anything the
    payload put there). *)
Theorem created_task_invariant
    (event : Event) (d d' : doubles) (r : Response) :
  handler event d = (Normal r, d') →
  statusCode r = 201 →
  ∃ task, created_task r = Some task
          ∧ truthy (task !! "title") = true
          ∧ truthy (task !! "assignedTo") = true
          ∧ is_Some (task !! "taskId").
Proof.
  intros Hrun Hs.
  destruct (handler_created _ _ _ _ Hrun Hs) as (m & _ & _ & Ht & Ha & -> & _).
  exists (new_task (JObject m)). split; [reflexivity|].
  rewrite !new_task_lookup. simpl.
  split; [exact Ht|]. split; [exact Ha|]. eauto.
Qed.

Lemma created_task_invariant_witness :
  handler valid_event beforeEach
    = (Normal (created (obj [("title", JString "Test Task");
                             ("description", JString "Test Description");
                             ("priority", JString "normal");
                             ("dueDate", JString "2026-03-15");
                             ("assignedTo", JArray [JString "user-123"])])),
       beforeEach)
  ∧ ∃ task : gmap string value,
      truthy (task !! "title") = true ∧ is_Some (task !! "taskId").
Proof.
  assert (Hrun : handler valid_event beforeEach
                 = (Normal (created (obj [("title", JString "Test Task");
                                          ("description", JString "Test Description");
                                          ("priority", JString "normal");
                                          ("dueDate", JString "2026-03-15");
                                          ("assignedTo", JArray [JString "user-123"])])),
                    beforeEach))
    by reflexivity.
  split; [exact Hrun|].
  destruct (created_task_invariant _ _ _ _ Hrun eq_refl) as (task & _ & Ht & _ & Hid).
  exists task. split; assumption.
Defined.

(** X7: what a client reads back from the body of any 201 response: the
    task has a taskId property, its status is "To Do", and a title that
    was a string in the payload is that string. *)
Theorem created_body_read_back
    (event : Event) (d d' : doubles) (r : Response) (m : gmap string value) :
  handler event d = (Normal r, d') →
  statusCode r = 201 →
  parsed event = Normal (JObject m) →
  toHaveProperty (field (parsed_body r) "task") "taskId" = true
  ∧ toBe_string (field (field (parsed_body r) "task") "status") "To Do" = true
  ∧ ∀ title, m !! "title" = Some (JString title) →
             toBe_string (field (field (parsed_body r) "task") "title") title = true.
Proof.
  intros Hrun Hs Hp.
  destruct (handler_created _ _ _ _ Hrun Hs) as (m' & Hp' & _ & _ & _ & -> & _).
  assert (m' = m) as -> by congruence.
  split; [|split].
  - unfold parsed_body, created, JSON_parse_serialised, response_body.
    rewrite reparse_object. unfold field.
    rewrite lookup_fmap, lookup_singleton_eq. simpl.
    apply bool_decide_eq_true_2.
    rewrite lookup_fmap, new_task_lookup. simpl. eauto.
  - rewrite parsed_body_task, new_task_lookup. reflexivity.
  - intros title Ht. rewrite parsed_body_task, new_task_lookup. simpl.
    rewrite Ht. simpl. apply String.eqb_refl.
Qed.

Lemma created_body_read_back_witness :
  handler valid_event beforeEach
    = (Normal (created (obj [("title", JString "Test Task");
                             ("description", JString "Test Description");
                             ("priority", JString "normal");
                             ("dueDate", JString "2026-03-15");
                             ("assignedTo", JArray [JString "user-123"])])),
       beforeEach)
  ∧ toBe_string
      (field (field (parsed_body
                       (created (obj [("title", JString "Test Task");
                                      ("description", JString "Test Description");
                                      ("priority", JString "normal");
                                      ("dueDate", JString "2026-03-15");
                                      ("assignedTo", JArray [JString "user-123"])])))
                "task") "title") "Test Task" = true.
Proof.
  assert (Hrun : handler valid_event beforeEach
                 = (Normal (created (obj [("title", JString "Test Task");
                                          ("description", JString "Test Description");
                                          ("priority", JString "normal");
                                          ("dueDate", JString "2026-03-15");
                                          ("assignedTo", JArray [JString "user-123"])])),
                    beforeEach))
    by reflexivity.
  split; [exact Hrun|].
  destruct (created_body_read_back _ _ _ _ _ Hrun eq_refl eq_refl) as (_ & _ & Ht).
  apply Ht. reflexivity.
Defined.

(** X8: the handler decides as the helpers of the integration suite do:
    it answers 403 exactly when mockCreateTask does for the same role,
    and for an admin it answers 400, answers 201 or rejects exactly when
    mockValidateTask answers 400, answers 200 or throws on the payload. *)
Theorem handler_agrees_with_helpers
    (event : Event) (d : doubles) (payload : value) :
  parsed event = Normal payload →
  (returned_status (handler event d) = Some 403
   ↔ Api.statusCode (Api.mockCreateTask (role_of event)) = 403)
  ∧ (strict_equals_string (role_of event) "admin" = true →
     match Api.mockValidateTask payload with
     | Normal reply =>
         returned_status (handler event d)
           = Some (if Z.eqb (Api.statusCode reply) 200 then 201 else 400)
     | Throw e => (handler event d).1 = Throw e
     end).
Proof.
  intros Hp. rewrite handler_unfold, Hp.
  unfold Api.mockCreateTask, Api.mockValidateTask, is_admin, returned_status.
  destruct (strict_equals_string _ _); simpl.
  - split.
    + destruct (missing_required payload) as [[|]|e]; simpl; split; discriminate.
    + intros _. destruct (missing_required payload) as [[|]|e]; reflexivity.
  - split; [split; reflexivity | discriminate].
Qed.

Lemma handler_agrees_with_helpers_witness :
  parsed missing_fields_event
    = Normal (obj [("description", JString "Test Description")])
  ∧ returned_status (handler missing_fields_event beforeEach) ≠ Some 403.
Proof.
  assert (Hp : parsed missing_fields_event
               = Normal (obj [("description", JString "Test Description")]))
    by reflexivity.
  split; [exact Hp|].
  intros H.
  apply (proj1 (handler_agrees_with_helpers _ beforeEach _ Hp)) in H.
  discriminate H.
Defined.

(** ** setup.js with the handler *)

(** X9: an event built by createMockEvent carries the admin role, so the
    handler never answers it 403, whatever the data; with no data, or
    with the empty string, the answer is 400. *)
Theorem createMockEvent_passes_role_check (data : Setup.mock_data) (d : doubles) :
  is_admin (Setup.createMockEvent data) = true
  ∧ returned_status (handler (Setup.createMockEvent data) d) ≠ Some 403
  ∧ returned_status (handler (Setup.createMockEvent (Setup.other_data None)) d)
    = Some 400
  ∧ returned_status (handler (Setup.createMockEvent (Setup.string_data None)) d)
    = Some 400.
Proof.
  split; [reflexivity|].
  rewrite handler_unfold.
  assert (Ha : is_admin (Setup.createMockEvent data) = true) by reflexivity.
  rewrite Ha. simpl. unfold parsed. simpl.
  split; [|split; rewrite handler_unfold; reflexivity].
  destruct (Setup.body_of data) as [[v|]|]; simpl; try discriminate.
  destruct (missing_required v) as [[|]|e]; discriminate.
Qed.

(** X10: createMockEvent and the handler compose: for data that is an
    object with a non-empty string title and an array assignedTo the
    handler answers 201, and the task has that title and status
    "To Do". *)
Theorem createMockEvent_then_handler
    (m : gmap string value) (title : string) (l : list value) (d : doubles) :
  m !! "title" = Some (JString title) →
  title ≠ "" →
  m !! "assignedTo" = Some (JArray l) →
  returned_status
    (handler (Setup.createMockEvent (Setup.other_data (Some (JObject m)))) d)
    = Some 201
  ∧ (task_of (handler (Setup.createMockEvent (Setup.other_data (Some (JObject m)))) d)
       ≫= (.!! "title")) = Some (JString title)
  ∧ (task_of (handler (Setup.createMockEvent (Setup.other_data (Some (JObject m)))) d)
       ≫= (.!! "status")) = Some (JString "To Do").
Proof.
  intros Ht Hne Ha.
  assert (Hrun : handler (Setup.createMockEvent (Setup.other_data (Some (JObject m)))) d
                 = (Normal (created (JObject (reparse <$> m))), d)).
  { rewrite handler_unfold.
    assert (His : is_admin (Setup.createMockEvent
                              (Setup.other_data (Some (JObject m)))) = true)
      by reflexivity.
    rewrite His. unfold parsed. simpl.
    unfold missing_required, mbind, completion_bind, mret, completion_ret. simpl.
    rewrite !lookup_fmap, Ht, Ha. simpl.
    apply String.eqb_neq in Hne. rewrite Hne. reflexivity. }
  rewrite Hrun. unfold returned_status, task_of. simpl.
  split; [reflexivity|].
  change (created_task (created (JObject (reparse <$> m))))
    with (Some (new_task (JObject (reparse <$> m)))).
  simpl. rewrite !new_task_lookup. simpl.
  rewrite lookup_fmap, Ht. split; reflexivity.
Qed.

Lemma createMockEvent_then_handler_witness :
  ({["title" := JString "Test Task"; "assignedTo" := JArray [JString "user-123"]]}
     : gmap string value) !! "title" = Some (JString "Test Task")
  ∧ "Test Task" ≠ ""
  ∧ returned_status
      (handler
         (Setup.createMockEvent
            (Setup.other_data
               (Some (JObject {["title" := JString "Test Task";
                                "assignedTo" := JArray [JString "user-123"]]}))))
         beforeEach)
    = Some 201.
Proof.
  assert (Ht : ({["title" := JString "Test Task";
                  "assignedTo" := JArray [JString "user-123"]]}
                  : gmap string value) !! "title" = Some (JString "Test Task"))
    by reflexivity.
  assert (Hne : "Test Task" ≠ "") by discriminate.
  assert (Ha : ({["title" := JString "Test Task";
                  "assignedTo" := JArray [JString "user-123"]]}
                  : gmap string value) !! "assignedTo"
               = Some (JArray [JString "user-123"]))
    by reflexivity.
  split; [exact Ht|]. split; [exact Hne|].
  exact (proj1 (createMockEvent_then_handler _ _ _ beforeEach Ht Hne Ha)).
Defined.

(** ** The helpers of api.test.js *)

Local Open Scope list_scope.

Lemma fold_Set_add_sublist (l seen : list value) :
  ∃ rest, fold_left Api.Set_add l seen = seen ++ rest ∧ rest `sublist_of` l.
Proof.
  revert seen. induction l as [|a l IH]; intros seen; simpl.
  - exists []. split; [symmetry; apply app_nil_r | constructor].
  - unfold Api.Set_add at 2. destruct (existsb _ seen).
    + destruct (IH seen) as (rest & -> & Hsub).
      exists rest. split; [reflexivity|]. by apply sublist_cons.
    + destruct (IH (seen ++ [a])) as (rest & -> & Hsub).
      exists (a :: rest). split; [by rewrite <- app_assoc|]. by apply sublist_skip.
Qed.







(** X12: on a non-empty array of identifiers (strings) the answer lists
    every identifier exactly once: no duplicates, the same members as the
    input, and never more entries than the input. *)
Theorem mockAssignTask_identifiers (ss : list string) :
  ss ≠ [] →
  ∃ us, Api.mockAssignTask (Some (JArray (JString <$> ss)))
        = {| Api.statusCode := 200;
             Api.properties := {["assignedTo" := JArray (JString <$> us)]} |}
        ∧ NoDup us
        ∧ (∀ s, s ∈ us ↔ s ∈ ss)
        ∧ (length us ≤ length ss)%nat.
Proof.
  intros Hne.
  destruct (uniqueMembers_strings ss) as (us & Heq & Hnd & Hin).
  exists us. split; [|split; [exact Hnd|split; [exact Hin|]]].
  - unfold Api.mockAssignTask. destruct ss; [congruence|]. simpl length.
    simpl Nat.eqb. cbv iota. rewrite Heq. reflexivity.
  - destruct (fold_Set_add_sublist (JString <$> ss) []) as (rest & Hf & Hsub).
    unfold Api.uniqueMembers in Heq. rewrite Hf in Heq. simpl in Heq. subst rest.
    apply sublist_length in Hsub. rewrite !length_fmap in Hsub. exact Hsub.
Qed.

Lemma mockAssignTask_identifiers_witness :
  ["user1"; "user2"; "user1"] ≠ []
  ∧ ∃ us, Api.mockAssignTask
            (Some (JArray (JString <$> ["user1"; "user2"; "user1"])))
          = {| Api.statusCode := 200;
               Api.properties := {["assignedTo" := JArray (JString <$> us)]} |}
          ∧ NoDup us.
Proof.
  assert (Hne : ["user1"; "user2"; "user1"] ≠ []) by discriminate.
  split; [exact Hne|].
  destruct (mockAssignTask_identifiers _ Hne) as (us & Heq & Hnd & _).
  exists us. split; assumption.
Defined.


Lemma existsb_SameValueZero_string (u : string) (l : list value) :
  existsb (SameValueZero (JString u)) l = true ↔ JString u ∈ l.
Proof.
  induction l as [|w l IH]; simpl.
  - split; [discriminate|]. intros H. inversion H.
  - rewrite orb_true_iff, IH, elem_of_cons.
    destruct w; simpl; try (split; [intros [?|?]; [discriminate|auto]
                                   | intros [?|?]; [discriminate|auto]]).
    rewrite String.eqb_eq. split; intros [H|H]; auto; left; congruence.
Qed.

Lemma includes_strings (ss : list string) (v : js) :
  Api.includes_value (JString <$> ss) v = true ↔
  ∃ s, s ∈ ss ∧ v = Some (JString s).
Proof.
  destruct v as [w|]; simpl.
  - split.
    + intros H. apply existsb_exists in H as (x & Hx & Hsv).
      apply list_elem_of_In, list_elem_of_fmap in Hx as (s & -> & Hs).
      destruct w; simpl in Hsv; try discriminate.
      apply String.eqb_eq in Hsv as ->. eauto.
    + intros (s & Hs & [= ->]). apply existsb_SameValueZero_string.
      apply list_elem_of_fmap. eauto.
  - split; [discriminate|]. intros (s & _ & ?). discriminate.
Qed.

(** X14: who sees which task: the admin role sees every task whatever
    the user id; any other role sees exactly the tasks whose assignedTo
    holds the user id, in the order of the full list. *)
Theorem mockGetTasks_visibility (u : string) (role : js) (t : Api.Task) :
  (t ∈ Api.mockGetTasks (Some (JString u)) role ↔
   t ∈ Api.allTasks
   ∧ (strict_equals_string role "admin" = true ∨ JString u ∈ Api.assignedTo t))
  ∧ Api.mockGetTasks (Some (JString u)) role `sublist_of` Api.allTasks.
Proof.
  unfold Api.mockGetTasks.
  destruct (strict_equals_string role "admin"); split.
  - split; [auto|]. intros [H _]. exact H.
  - reflexivity.
  - rewrite list_elem_of_filter. unfold Api.includes_value.
    rewrite existsb_SameValueZero_string.
    split; [intros [H1 H2]; auto|]. intros [H1 [H2|H2]]; [discriminate|auto].
  - apply sublist_filter.
Qed.

(** X15: mockUpdateStatus answers 200 and echoes the new status exactly
    when it is one of "To Do", "In Progress", "Completed", and 400
    "Invalid status" otherwise; the current status plays no part, so any
    move between the three, backwards included, is accepted. *)
Theorem mockUpdateStatus_reply (currentStatus newStatus : js) :
  (∃ s, s ∈ ["To Do"; "In Progress"; "Completed"]%string
        ∧ newStatus = Some (JString s)
        ∧ Api.mockUpdateStatus currentStatus newStatus
          = {| Api.statusCode := 200;
               Api.properties := {["status" := JString s]} |})
  ∨ ((¬ ∃ s, s ∈ ["To Do"; "In Progress"; "Completed"]%string
             ∧ newStatus = Some (JString s))
     ∧ Api.mockUpdateStatus currentStatus newStatus
       = {| Api.statusCode := 400;
            Api.properties := {["message" := JString "Invalid status"]} |}).
Proof.
  unfold Api.mockUpdateStatus.
  change Api.validStatuses
    with (JString <$> ["To Do"; "In Progress"; "Completed"]%string).
  destruct (Api.includes_value _ newStatus) eqn:Hin; simpl.
  - left. apply includes_strings in Hin as (s & Hs & ->). eauto.
  - right. split; [|reflexivity]. intros H. apply includes_strings in H. congruence.
Qed.

(** X16: comments are only ever appended: the new comment goes last with
    the given text, author and timestamp, and after any number of
    additions the comments there were are still the first ones, in
    their order. *)
Theorem mockAddComment_appends
    (timestamp : string) (existingComments : list value) (newComment author : value)
    (later : list (string * value * value)) :
  (∃ c, Api.mockAddComment timestamp existingComments newComment author
          !! length existingComments = Some (JObject c)
        ∧ c !! "text" = Some newComment
        ∧ c !! "author" = Some author
        ∧ c !! "timestamp" = Some (JString timestamp))
  ∧ take (length existingComments)
      (fold_left (fun cs n => Api.mockAddComment n.1.1 cs n.1.2 n.2)
                 later existingComments)
    = existingComments
  ∧ length (fold_left (fun cs n => Api.mockAddComment n.1.1 cs n.1.2 n.2)
                      later existingComments)
    = (length existingComments + length later)%nat.
Proof.
  split.
  - eexists. unfold Api.mockAddComment.
    rewrite lookup_app_r by reflexivity. rewrite Nat.sub_diag.
    split; [reflexivity|].
    rewrite lookup_insert_ne, lookup_insert_ne, lookup_singleton_eq by discriminate.
    rewrite lookup_insert_ne, lookup_insert_eq by discriminate.
    rewrite lookup_insert_eq. auto.
  - assert (H : ∀ cs, ∃ rest,
               fold_left (fun cs n => Api.mockAddComment n.1.1 cs n.1.2 n.2) later cs
               = cs ++ rest ∧ length rest = length later).
    { induction later as [|n later IH]; intros cs; simpl.
      - exists []. split; [symmetry; apply app_nil_r | reflexivity].
      - destruct (IH (Api.mockAddComment n.1.1 cs n.1.2 n.2)) as (rest & -> & Hlen).
        unfold Api.mockAddComment. eexists. rewrite <- app_assoc.
        split; [reflexivity|]. simpl. by rewrite Hlen. }
    destruct (H existingComments) as (rest & -> & Hlen).
    rewrite take_app_length, length_app, Hlen. auto.
Qed.

(** X17: mockApiOperation never throws: the exception raised for a
    truthy argument is caught and becomes the reply 500
    "Internal server error", which does not carry the exception's own
    message; for a falsy argument the reply is 200. *)
Theorem mockApiOperation_catches (simulateError : js) :
  Api.mockApiOperation simulateError
  = Normal (if truthy simulateError
            then {| Api.statusCode := 500;
                    Api.properties := {["message" := JString "Internal server error"]} |}
            else {| Api.statusCode := 200;
                    Api.properties := {["data" := JObject ∅]} |})
  ∧ ∀ e, Api.mockApiOperation simulateError ≠ Throw e.
Proof.
  unfold Api.mockApiOperation, Api.try_catch.
  destruct (truthy simulateError); split; try reflexivity; discriminate.
Qed.

Local Open Scope string_scope.

Lemma string_append_cons (c : ascii) (s t : string) :
  String c s ++ t = String c (s ++ t).
Proof. reflexivity. Qed.

Lemma string_append_assoc (s t u : string) : (s ++ t) ++ u = s ++ (t ++ u).
Proof.
  induction s as [|c s IH]; [reflexivity|].
  rewrite !string_append_cons. f_equal. exact IH.
Qed.

Lemma string_append_length (s t : string) :
  String.length (s ++ t) = (String.length s + String.length t)%nat.
Proof.
  induction s as [|c s IH]; [reflexivity|].
  rewrite string_append_cons. simpl. f_equal. exact IH.
Qed.

Lemma string_append_inv_tail (s s' t : string) : s ++ t = s' ++ t → s = s'.
Proof.
  revert s'. induction s as [|c s IH]; intros [|c' s'] H.
  - reflexivity.
  - apply (f_equal String.length) in H.
    rewrite !string_append_length in H. simpl in H. lia.
  - apply (f_equal String.length) in H.
    rewrite !string_append_length in H. simpl in H. lia.
  - rewrite !string_append_cons in H. injection H as -> H. f_equal. by apply IH.
Qed.

(** X18: tokens tell roles apart: two roles get the same token only if
    they are the same role; leaving the role out gives the admin token. *)
Theorem getMockAuthToken_injective (role role' : string) :
  (Api.getMockAuthToken (Some role) = Api.getMockAuthToken (Some role')
   ↔ role = role')
  ∧ Api.getMockAuthToken None = Api.getMockAuthToken (Some "admin").
Proof.
  split; [|reflexivity]. split; [|by intros ->].
  unfold Api.getMockAuthToken. simpl default. intros H.
  apply (inj (String.app "mock-")) in H. by apply string_append_inv_tail in H.
Qed.

Lemma first_line_app (s t : string) :
  CommitBatch.single_line s = true →
  CommitBatch.first_line (s ++ t) = s ++ CommitBatch.first_line t.
Proof.
  induction s as [|c s IH]; [reflexivity|].
  rewrite string_append_cons. simpl.
  rewrite andb_true_iff, negb_true_iff. intros [-> Hs]. by rewrite IH.
Qed.

Lemma single_line_app (s t : string) :
  CommitBatch.single_line (s ++ t)
  = CommitBatch.single_line s && CommitBatch.single_line t.
Proof.
  induction s as [|c s IH]; [reflexivity|].
  rewrite string_append_cons. simpl. by rewrite IH, andb_assoc.
Qed.

Lemma string_append_nil_r (s : string) : s ++ "" = s.
Proof.
  induction s as [|c s IH]; [reflexivity|].
  rewrite string_append_cons. f_equal. exact IH.
Qed.

(** X19: the first line of the message make_commit builds is the
    conventional header, type(scope): subject, or type: subject when the
    scope is empty, whatever the body and the footer, provided type,
    scope and subject are single lines. *)
Theorem commit_msg_first_line (type scope subject body footer : string) :
  CommitBatch.single_line type = true →
  CommitBatch.single_line scope = true →
  CommitBatch.single_line subject = true →
  CommitBatch.first_line (CommitBatch.commit_msg type scope subject body footer)
  = type ++ (if String.eqb scope "" then "" else "(" ++ scope ++ ")")
         ++ ": " ++ subject.
Proof.
  intros Ht Hs Hsub.
  set (header := type ++ (if String.eqb scope "" then "" else "(" ++ scope ++ ")")
                      ++ ": " ++ subject).
  assert (Hh : CommitBatch.single_line header = true).
  { unfold header.
    destruct (String.eqb scope ""); rewrite !single_line_app, ?Ht, ?Hs, ?Hsub;
      reflexivity. }
  assert (Hmsg : ∃ tail, CommitBatch.commit_msg type scope subject body footer
                         = header ++ tail
                         ∧ CommitBatch.first_line tail = "").
  { exists ((if String.eqb body "" then ""
             else CommitBatch.newline ++ CommitBatch.newline ++ body)
            ++ (if String.eqb footer "" then ""
                else CommitBatch.newline ++ CommitBatch.newline ++ footer)).
    unfold CommitBatch.commit_msg, CommitBatch.non_empty, header.
    destruct (String.eqb scope ""), (String.eqb body ""), (String.eqb footer "");
      simpl negb; cbv iota;
      (split; [rewrite ?string_append_assoc, ?string_append_nil_r; reflexivity
              | reflexivity]). }
  destruct Hmsg as (tail & -> & Htail).
  rewrite (first_line_app _ _ Hh), Htail. apply string_append_nil_r.
Qed.

Lemma commit_msg_first_line_witness :
  CommitBatch.single_line "feat" = true
  ∧ CommitBatch.single_line "tasks" = true
  ∧ CommitBatch.single_line "implement create task Lambda function" = true
  ∧ CommitBatch.first_line
      (CommitBatch.commit_msg "feat" "tasks" "implement create task Lambda function"
         "- Return created task object" "Closes US-004")
    = "feat(tasks): implement create task Lambda function".
Proof.
  split; [reflexivity|]. split; [reflexivity|]. split; [reflexivity|].
  exact (commit_msg_first_line "feat" "tasks" "implement create task Lambda function"
           "- Return created task object" "Closes US-004" eq_refl eq_refl eq_refl).
Defined.
